(** * The maps_agent orchestrator (src/maps_agent.py)

    A shallow embedding of the [/run] endpoint: the pydantic schemas, the
    construction of the agents and of their prompts, and the sequencing of
    the three agent runs inside the scope of the Google Maps MCP server.

    Everything outside the module (the process environment, the MCP
    subprocess, the agent runtime) is a [World]: a record of oracles that
    the handler queries.  The handler is written in a small monad that
    reads the world, raises Python exceptions and logs every external call
    in a trace, so that "was never started" is a statement about the
    trace. *)

From Stdlib Require Import ZArith String Ascii List Bool Floats DecimalString Lia.
Import ListNotations.
Local Open Scope string_scope.
Local Open Scope Z_scope.

(** ** Python values *)

(** [str(n)] for an [int]. *)
Definition str_int (n : Z) : string := NilZero.string_of_int (Z.to_int n).

(** An [Optional[str]] inside an f-string: [None] prints as [None]. *)
Definition str_optional (o : option string) : string :=
  match o with Some s => s | None => "None" end.

(** The line feed written [\n] in the source. *)
Definition nl : string := String "010"%char EmptyString.

(** Truth value of a [float]: everything but zero (of either sign). *)
Definition float_truthy (x : float) : bool := negb (PrimFloat.eqb x 0%float).

(** Truth value of an [int]. *)
Definition int_truthy (n : Z) : bool := negb (n =? 0).

(** The exceptions the handler can see.  [AgentsException] stands for the
    class of [agents.exceptions] and all its subclasses, with [str(e)] as
    its argument; [OtherError] is any exception of another class. *)
Inductive exn : Type :=
| AgentsException (msg : string)
| TypeError (msg : string)
| HTTPException (status_code : Z) (detail : string)
| OtherError (cls msg : string).

(** [sep.join(xs)]; [xs] is [None] when the caller passed [None], which
    [str.join] refuses. *)
Definition str_join (sep : string) (xs : option (list string)) : exn + string :=
  match xs with
  | Some l => inr (String.concat sep l)
  | None => inl (TypeError "can only join an iterable")
  end.

(** ** Schemas *)

Record LocationItem : Type := {
  location_name : string;
  latitude : float;
  longitude : float;
  rating : option float;
  number_of_reviews : option Z;
  description : option string;
  distance_meters : option float
}.

Record BusinessListOutput : Type := {
  businesses : list LocationItem
}.

Record SimilarAreaOutput : Type := {
  center_latitude : float;
  center_longitude : float;
  radius_meters : float;
  matched_businesses : list LocationItem
}.

Record RunRequest : Type := {
  source_address : string;
  source_radius : Z;
  destination_address : string;
  destination_radius : Z;
  comparison_city : string;
  industries : option (list string)
}.

Record RunResponse : Type := {
  source_businesses : BusinessListOutput;
  destination_businesses : BusinessListOutput;
  similar_area : SimilarAreaOutput
}.

(** ** JSON documents and the schemas' reading and writing of them

    [BaseModel] derives a validator and a serialiser from the field
    declarations above.  Documents are modelled as trees, the way
    [json.loads] hands them over: an object is its list of members, a
    number is an [int] or a [float] leaf. *)

#[local] Set Warnings "-register-all".
Inductive json : Type :=
| JNull
| JBool (b : bool)
| JInt (n : Z)
| JFloat (x : float)
| JString (s : string)
| JArray (items : list json)
| JObject (members : list (string * json)).

(** Member lookup; of two members with one key the later wins, as in a
    [dict]. *)
Fixpoint member (k : string) (o : list (string * json)) : option json :=
  match o with
  | [] => None
  | (k', v) :: o' =>
      match member k o' with
      | Some v' => Some v'
      | None => if String.eqb k k' then Some v else None
      end
  end.

Fixpoint traverse {A B : Type} (f : A -> option B) (l : list A) : option (list B) :=
  match l with
  | [] => Some []
  | a :: l' =>
      match f a, traverse f l' with
      | Some b, Some bs => Some (b :: bs)
      | _, _ => None
      end
  end.

(** One reader per annotation.  Each accepts the JSON value of the
    annotated type; the coercions pydantic adds in lax mode (a numeric
    string for an [int], an integer for a [float]) only add accepted
    documents and are not modelled. *)
Definition as_str (j : json) : option string :=
  match j with JString s => Some s | _ => None end.

Definition as_int (j : json) : option Z :=
  match j with JInt n => Some n | _ => None end.

Definition as_float (j : json) : option float :=
  match j with JFloat x => Some x | _ => None end.

Definition as_List {A : Type} (f : json -> option A) (j : json) : option (list A) :=
  match j with JArray items => traverse f items | _ => None end.

Definition as_Optional {A : Type} (f : json -> option A) (j : json) : option (option A) :=
  match j with
  | JNull => Some None
  | _ => option_map Some (f j)
  end.

(** A field without default must be present; a field with a default
    takes it when the member is absent. *)
Definition required {A : Type} (f : json -> option A) (k : string)
    (o : list (string * json)) : option A :=
  match member k o with Some j => f j | None => None end.

Definition defaulted {A : Type} (d : A) (f : json -> option A) (k : string)
    (o : list (string * json)) : option A :=
  match member k o with Some j => f j | None => Some d end.

Declare Scope opt_scope.
Delimit Scope opt_scope with opt.
Notation "x <- a ;; b" :=
  (match a with Some x => b | None => None end)
  (at level 61, a at next level, right associativity) : opt_scope.

Definition LocationItem_validate (j : json) : option LocationItem :=
  match j with
  | JObject o =>
      (n <- required as_str "location_name" o ;;
       la <- required as_float "latitude" o ;;
       lo <- required as_float "longitude" o ;;
       r <- defaulted None (as_Optional as_float) "rating" o ;;
       nr <- defaulted None (as_Optional as_int) "number_of_reviews" o ;;
       d <- defaulted None (as_Optional as_str) "description" o ;;
       dm <- defaulted None (as_Optional as_float) "distance_meters" o ;;
       Some {| location_name := n; latitude := la; longitude := lo;
               rating := r; number_of_reviews := nr; description := d;
               distance_meters := dm |})%opt
  | _ => None
  end.

Definition BusinessListOutput_validate (j : json) : option BusinessListOutput :=
  match j with
  | JObject o =>
      (bs <- required (as_List LocationItem_validate) "businesses" o ;;
       Some {| businesses := bs |})%opt
  | _ => None
  end.

Definition SimilarAreaOutput_validate (j : json) : option SimilarAreaOutput :=
  match j with
  | JObject o =>
      (la <- required as_float "center_latitude" o ;;
       lo <- required as_float "center_longitude" o ;;
       r <- required as_float "radius_meters" o ;;
       bs <- required (as_List LocationItem_validate) "matched_businesses" o ;;
       Some {| center_latitude := la; center_longitude := lo;
               radius_meters := r; matched_businesses := bs |})%opt
  | _ => None
  end.

(** The request body of [POST /run]; [None] is a rejected body. *)
Definition RunRequest_validate (j : json) : option RunRequest :=
  match j with
  | JObject o =>
      (sa <- required as_str "source_address" o ;;
       sr <- required as_int "source_radius" o ;;
       da <- required as_str "destination_address" o ;;
       dr <- required as_int "destination_radius" o ;;
       cc <- required as_str "comparison_city" o ;;
       ind <- defaulted (Some []) (as_Optional (as_List as_str)) "industries" o ;;
       Some {| source_address := sa; source_radius := sr;
               destination_address := da; destination_radius := dr;
               comparison_city := cc; industries := ind |})%opt
  | _ => None
  end.

Definition RunResponse_validate (j : json) : option RunResponse :=
  match j with
  | JObject o =>
      (sb <- required BusinessListOutput_validate "source_businesses" o ;;
       db <- required BusinessListOutput_validate "destination_businesses" o ;;
       sim <- required SimilarAreaOutput_validate "similar_area" o ;;
       Some {| source_businesses := sb; destination_businesses := db;
               similar_area := sim |})%opt
  | _ => None
  end.

(** Serialisation: every declared field is written, a [None] as [null]. *)
Definition dump_Optional {A : Type} (f : A -> json) (o : option A) : json :=
  match o with Some a => f a | None => JNull end.

(** A [float] is written as a number when it is finite; JSON has no
    number for [nan] and the two infinities, which are written [null]. *)
Definition dump_float (x : float) : json :=
  if PrimFloat.is_finite x then JFloat x else JNull.

Definition LocationItem_dump (b : LocationItem) : json :=
  JObject [ ("location_name", JString (location_name b));
            ("latitude", dump_float (latitude b));
            ("longitude", dump_float (longitude b));
            ("rating", dump_Optional dump_float (rating b));
            ("number_of_reviews", dump_Optional JInt (number_of_reviews b));
            ("description", dump_Optional JString (description b));
            ("distance_meters", dump_Optional dump_float (distance_meters b)) ].

Definition BusinessListOutput_dump (l : BusinessListOutput) : json :=
  JObject [ ("businesses", JArray (map LocationItem_dump (businesses l))) ].

Definition SimilarAreaOutput_dump (s : SimilarAreaOutput) : json :=
  JObject [ ("center_latitude", dump_float (center_latitude s));
            ("center_longitude", dump_float (center_longitude s));
            ("radius_meters", dump_float (radius_meters s));
            ("matched_businesses",
             JArray (map LocationItem_dump (matched_businesses s))) ].

Definition RunResponse_dump (r : RunResponse) : json :=
  JObject [ ("source_businesses", BusinessListOutput_dump (source_businesses r));
            ("destination_businesses",
             BusinessListOutput_dump (destination_businesses r));
            ("similar_area", SimilarAreaOutput_dump (similar_area r)) ].

(** The responses all of whose floats are finite. *)
Definition Optional_finite (o : option float) : bool :=
  match o with Some x => PrimFloat.is_finite x | None => true end.

Definition LocationItem_finite (b : LocationItem) : bool :=
  PrimFloat.is_finite (latitude b) && PrimFloat.is_finite (longitude b)
  && Optional_finite (rating b) && Optional_finite (distance_meters b).

Definition BusinessListOutput_finite (l : BusinessListOutput) : bool :=
  forallb LocationItem_finite (businesses l).

Definition SimilarAreaOutput_finite (s : SimilarAreaOutput) : bool :=
  PrimFloat.is_finite (center_latitude s)
  && PrimFloat.is_finite (center_longitude s)
  && PrimFloat.is_finite (radius_meters s)
  && forallb LocationItem_finite (matched_businesses s).

Definition RunResponse_finite (r : RunResponse) : bool :=
  BusinessListOutput_finite (source_businesses r)
  && BusinessListOutput_finite (destination_businesses r)
  && SimilarAreaOutput_finite (similar_area r).

(** ** The world outside the module *)

(** [MCPServerStdio(name=..., params={"command": ..., "args": [...]})]. *)
Record MCPServerStdio : Type := {
  server_name : string;
  command : string;
  args : list string
}.

(** The two schemas an agent is asked to answer in. *)
Inductive OutputType : Type :=
| TBusinessListOutput
| TSimilarAreaOutput.

Definition output_of (t : OutputType) : Type :=
  match t with
  | TBusinessListOutput => BusinessListOutput
  | TSimilarAreaOutput => SimilarAreaOutput
  end.

Record Agent : Type := {
  name : string;
  handoff_description : string;
  mcp_servers : list MCPServerStdio;
  model : string;
  instructions : string;
  output_type : OutputType
}.

(** What the handler cannot compute itself.  [getenv] is [os.getenv];
    [aenter] is the start of the MCP subprocess ([None]: connected,
    [Some e]: [e] was raised); [runner k] answers the run that follows
    [k] earlier runs of the same request, with the [final_output] in the
    agent's [output_type] or with the exception raised. *)
Record World : Type := {
  getenv : string -> option string;
  aenter : MCPServerStdio -> option exn;
  runner : nat -> forall a : Agent, string -> Z -> exn + output_of (output_type a)
}.

Inductive event : Type :=
| Enter (server : MCPServerStdio)
| Run (agent : Agent) (prompt : string) (max_turns : Z)
| Exit (server : MCPServerStdio).

Definition is_Run (e : event) : bool :=
  match e with Run _ _ _ => true | _ => false end.

(** The agent runs of a trace, in order. *)
Definition runs (tr : list event) : list event := filter is_Run tr.

(** ** The handler monad: world, exceptions, trace *)

Definition M (A : Type) : Type := World -> list event -> (exn + A) * list event.

Definition ret {A : Type} (a : A) : M A := fun _ tr => (inr a, tr).

Definition raise {A : Type} (e : exn) : M A := fun _ tr => (inl e, tr).

Definition bind {A B : Type} (m : M A) (k : A -> M B) : M B :=
  fun w tr =>
    match m w tr with
    | (inl e, tr') => (inl e, tr')
    | (inr a, tr') => k a w tr'
    end.

Declare Scope handler_scope.
Delimit Scope handler_scope with M.
Notation "x <- m ;; k" := (bind m (fun x => k))
  (at level 61, m at next level, right associativity) : handler_scope.

(** A pure expression that may raise. *)
Definition lift {A : Type} (r : exn + A) : M A := fun _ tr => (r, tr).

(** [try: m  except C as e: h e]; [h] answers [None] for an exception
    that is not of class [C], which then propagates. *)
Definition try_except {A : Type} (m : M A) (h : exn -> option (M A)) : M A :=
  fun w tr =>
    match m w tr with
    | (inl e, tr') =>
        match h e with
        | Some k => k w tr'
        | None => (inl e, tr')
        end
    | (inr a, tr') => (inr a, tr')
    end.

Definition os_getenv (k : string) : M (option string) :=
  fun w tr => (inr (getenv w k), tr).

(** [async with server as s: body s].  When entering raises the body is
    not run; otherwise the server is left when the body ends, normally or
    by an exception, which leaving does not swallow. *)
Definition async_with {A : Type} (server : MCPServerStdio)
    (body : MCPServerStdio -> M A) : M A :=
  fun w tr =>
    match aenter w server with
    | Some e => (inl e, (tr ++ [Enter server])%list)
    | None =>
        let '(r, tr') := body server w (tr ++ [Enter server])%list in
        (r, (tr' ++ [Exit server])%list)
    end.

(** [await Runner.run(agent, prompt, max_turns=n)], yielding
    [result.final_output]. *)
Definition Runner_run (a : Agent) (prompt : string) (max_turns : Z)
    : M (output_of (output_type a)) :=
  fun w tr =>
    (runner w (length (runs tr)) a prompt max_turns,
     (tr ++ [Run a prompt max_turns])%list).

(** ** run_business_agent *)

(** The [Agent(...)] expression of [run_business_agent]. *)
Definition business_agent (mcp_server : MCPServerStdio) (address : string)
    (radius : Z) (industries : option (list string)) : exn + Agent :=
  match str_join " or " industries with
  | inl e => inl e
  | inr inds =>
      inr {| name := "Business Finder - " ++ address;
             handoff_description := "Finds businesses near " ++ address;
             mcp_servers := [mcp_server];
             model := "gpt-4.1-nano";
             instructions :=
               "You are a Google Maps agent tasked with identifying businesses in "
               ++ inds ++ " within a " ++ str_int radius ++ "m "
               ++ "radius around " ++ address ++ ". For each business, return:" ++ nl
               ++ "- location_name (string)" ++ nl
               ++ "- latitude (float)" ++ nl
               ++ "- longitude (float)" ++ nl
               ++ "- rating (optional float)" ++ nl
               ++ "- number_of_reviews (optional int)" ++ nl
               ++ "- description (what the business does)" ++ nl
               ++ "- distance_meters (from starting point)" ++ nl
               ++ "Use only interactive, visible elements and report accurate results.";
             output_type := TBusinessListOutput |}
  end.

(** The [prompt] of [run_business_agent]. *)
Definition business_prompt (address : string) (radius : Z)
    (industries : option (list string)) : exn + string :=
  match str_join " or " industries with
  | inl e => inl e
  | inr inds =>
      inr ("Identify and return a list of all the businesses in " ++ inds
           ++ " in a " ++ str_int radius ++ " meter radius near " ++ address ++ ".")
  end.

(** [x.businesses]: only a [BusinessListOutput] has the attribute. *)
Definition attr_businesses {t : OutputType} : output_of t -> exn + list LocationItem :=
  match t with
  | TBusinessListOutput => fun x => inr (businesses x)
  | TSimilarAreaOutput =>
      fun _ => inl (OtherError "AttributeError"
                      "'SimilarAreaOutput' object has no attribute 'businesses'")
  end.

Definition run_business_agent (mcp_server : MCPServerStdio) (address : string)
    (radius : Z) (industries : option (list string)) : M (list LocationItem) :=
  (agent <- lift (business_agent mcp_server address radius industries) ;;
   prompt <- lift (business_prompt address radius industries) ;;
   result <- Runner_run agent prompt 15 ;;
   lift (attr_businesses result))%M.

(** ** run_agents *)

(** The server of the [async with]; the key is spliced into the
    argument by an f-string, so an unset variable reads [None]. *)
Definition GoogleMapsMcp (key : option string) : MCPServerStdio :=
  {| server_name := "Google Maps MCP";
     command := "env";
     args := [ "GOOGLE_MAPS_API_KEY=" ++ str_optional key;
               "npx"; "-y"; "@modelcontextprotocol/server-google-maps" ] |}.

(** The [Agent(...)] expression of step 3. *)
Definition similarity_agent (mcp_server : MCPServerStdio) (req : RunRequest)
    : exn + Agent :=
  match str_join " or " (industries req) with
  | inl e => inl e
  | inr inds =>
      inr {| name := "Similar Area Finder";
             handoff_description :=
               "Finds similar business clusters in " ++ comparison_city req ++ ".";
             mcp_servers := [mcp_server];
             model := "gpt-4.1";
             instructions :=
               "You are a Google Maps agent tasked with finding a location in "
               ++ comparison_city req ++ " "
               ++ "that has a similar business composition regarding " ++ inds
               ++ " to a provided "
               ++ "list."
               ++ "Your output must include:" ++ nl
               ++ "- center_latitude (float)" ++ nl
               ++ "- center_longitude (float)" ++ nl
               ++ "- radius_meters (float)" ++ nl
               ++ "- matched_businesses (list of businesses matching the original cluster, each with location_name, "
               ++ "latitude, longitude, rating, number_of_reviews, description, distance_meters from center)";
             output_type := TSimilarAreaOutput |}
  end.

(** The [similar_area] field of [RunResponse] takes a
    [SimilarAreaOutput] and nothing else. *)
Definition field_similar_area {t : OutputType} : output_of t -> exn + SimilarAreaOutput :=
  match t with
  | TSimilarAreaOutput => fun x => inr x
  | TBusinessListOutput =>
      fun _ => inl (OtherError "ValidationError" "similar_area")
  end.

(** The clause [except AgentsException as e] of the handler. *)
Definition except_AgentsException (e : exn) : option (M RunResponse) :=
  match e with
  | AgentsException msg => Some (raise (HTTPException 500 msg))
  | _ => None
  end.

Section Handler.

(** [repr] of a non-zero [float], the text an f-string prints for it. *)
Variable float_repr : float -> string.

(** [b.rating or 'N/A'] and [b.number_of_reviews or 0], as printed. *)
Definition rating_or_NA (r : option float) : string :=
  match r with
  | Some x => if float_truthy x then float_repr x else "N/A"
  | None => "N/A"
  end.

Definition reviews_or_0 (n : option Z) : string :=
  match n with
  | Some k => if int_truthy k then str_int k else str_int 0
  | None => str_int 0
  end.

(** One line of the summary of the source businesses. *)
Definition business_line (b : LocationItem) : string :=
  "- " ++ location_name b ++ " (" ++ str_optional (description b)
  ++ "), rated " ++ rating_or_NA (rating b)
  ++ " with " ++ reviews_or_0 (number_of_reviews b) ++ " reviews".

Definition business_list_str (source_businesses : list LocationItem) : string :=
  String.concat nl (map business_line source_businesses).

Definition similarity_prompt (source_businesses : list LocationItem)
    (comparison_city : string) : string :=
  "Based on the following list of businesses:" ++ nl ++ nl
  ++ business_list_str source_businesses ++ nl ++ nl
  ++ "Find a similar area in " ++ comparison_city
  ++ " with a comparable mix of businesses in retail and production. "
  ++ "Return a center location (lat/lon), the search radius in meters, and a list of matching businesses.".

Definition run_agents (req : RunRequest) : M RunResponse :=
  try_except
    (key <- os_getenv "GOOGLE_MAPS_API_KEY" ;;
     async_with (GoogleMapsMcp key) (fun googleMapsMcpServer =>
       source_businesses <-
         run_business_agent googleMapsMcpServer
           (source_address req) (source_radius req) (industries req) ;;
       destination_businesses <-
         run_business_agent googleMapsMcpServer
           (destination_address req) (destination_radius req) (industries req) ;;
       agent <- lift (similarity_agent googleMapsMcpServer req) ;;
       similar_area_result <-
         Runner_run agent
           (similarity_prompt source_businesses (comparison_city req)) 20 ;;
       area <- lift (field_similar_area similar_area_result) ;;
       ret {| source_businesses := {| businesses := source_businesses |};
              destination_businesses := {| businesses := destination_businesses |};
              similar_area := area |}))%M
    except_AgentsException.

(** One request: the handler run from an empty trace. *)
Definition handle (req : RunRequest) (w : World)
    : (exn + RunResponse) * list event :=
  run_agents req w [].

(** [POST /run]: a body the request model rejects never reaches the
    handler. *)
Definition post_run (body : json) (w : World)
    : option ((exn + RunResponse) * list event) :=
  option_map (fun req => handle req w) (RunRequest_validate body).

End Handler.

(** The body of a request, as a client writes it. *)
Definition request_body (sa : string) (sr : Z) (da : string) (dr : Z)
    (cc : string) (ind : json) : json :=
  JObject [ ("source_address", JString sa);
            ("source_radius", JInt sr);
            ("destination_address", JString da);
            ("destination_radius", JInt dr);
            ("comparison_city", JString cc);
            ("industries", ind) ].

(** The server the handler enters in world [w]. *)
Definition server (w : World) : MCPServerStdio :=
  GoogleMapsMcp (getenv w "GOOGLE_MAPS_API_KEY").

(** What leaves the handler when [e] is raised under its [try]. *)
Definition reraised (e : exn) : exn :=
  match e with
  | AgentsException msg => HTTPException 500 msg
  | _ => e
  end.

(** A request that ends by the exception [e] once the server is
    entered and the runs [done] have been made. *)
Definition stopped (srv : MCPServerStdio) (e : exn) (done : list event)
    : (exn + RunResponse) * list event :=
  (inl (reraised e), (Enter srv :: done ++ [Exit srv])%list).

(** ** Sample data *)

Definition cafe : LocationItem :=
  {| location_name := "Kwik-E-Mart"; latitude := 44.5%float;
     longitude := (-123.25)%float; rating := Some 4.5%float;
     number_of_reviews := Some 120; description := Some "convenience store";
     distance_meters := Some 85%float |}.

Definition unrated : LocationItem :=
  {| location_name := "Lard Lad Donuts"; latitude := 44.75%float;
     longitude := (-123.5)%float; rating := None;
     number_of_reviews := None; description := None;
     distance_meters := None |}.

Definition rated_zero : LocationItem :=
  {| location_name := "Lard Lad Donuts"; latitude := 44.75%float;
     longitude := (-123.5)%float; rating := Some 0%float;
     number_of_reviews := Some 0; description := None;
     distance_meters := None |}.

Definition off_scale : LocationItem :=
  {| location_name := "Springfield Nuclear Power Plant";
     latitude := 44.25%float; longitude := (-123.75)%float;
     rating := Some infinity; number_of_reviews := Some 7;
     description := Some "power plant"; distance_meters := None |}.

Definition nowhere : LocationItem :=
  {| location_name := "Springfield Nuclear Power Plant";
     latitude := nan; longitude := (-123.75)%float;
     rating := Some 2.5%float; number_of_reviews := Some 7;
     description := Some "power plant"; distance_meters := None |}.

Definition sample_area : SimilarAreaOutput :=
  {| center_latitude := 38.5%float; center_longitude := (-77.25)%float;
     radius_meters := 400%float; matched_businesses := [cafe] |}.

Definition sample_response (bs : list LocationItem) : RunResponse :=
  {| source_businesses := {| businesses := bs |};
     destination_businesses := {| businesses := [cafe] |};
     similar_area := sample_area |}.

Definition sample_request (ind : option (list string)) : RunRequest :=
  {| source_address := "1 Main St, Springfield"; source_radius := 500;
     destination_address := "1 Main St, Shelbyville"; destination_radius := 500;
     comparison_city := "Capital City"; industries := ind |}.

(** A world given by the value of the API key, the fate of the
    subprocess and, per run, the exception raised if any; a run that
    does not fail answers with the sample data. *)
Definition scripted_world (key : option string) (start : option exn)
    (failing : nat -> option exn) : World :=
  {| getenv := fun k => if String.eqb k "GOOGLE_MAPS_API_KEY" then key else None;
     aenter := fun _ => start;
     runner := fun k a _ _ =>
       match failing k with
       | Some e => inl e
       | None =>
           match output_type a as t return exn + output_of t with
           | TBusinessListOutput => inr {| businesses := [cafe; unrated] |}
           | TSimilarAreaOutput => inr sample_area
           end
       end |}.

(** A rendering of floats for the sample data, whose only rating that
    is printed is [4.5]. *)
Definition sample_repr (x : float) : string := "4.5".

(** The runtime gives up on the run that follows [n] earlier ones. *)
Definition max_turns_exceeded_at (n : nat) (k : nat) : option exn :=
  if Nat.eqb k n then Some (AgentsException "Max turns (15) exceeded") else None.

Definition world_ok : World :=
  scripted_world (Some "AIzaSyExample") None (fun _ => None).

Definition world_no_key : World :=
  scripted_world None None (fun _ => None).

Definition world_no_subprocess : World :=
  scripted_world (Some "AIzaSyExample")
    (Some (OtherError "FileNotFoundError" "No such file or directory: 'env'"))
    (fun _ => None).

Definition world_source_fails : World :=
  scripted_world (Some "AIzaSyExample") None (max_turns_exceeded_at 0).

Definition world_destination_fails : World :=
  scripted_world (Some "AIzaSyExample") None (max_turns_exceeded_at 1).

(** * Properties *)

(** ** The schemas *)

Lemma traverse_map {A B : Type} (f : A -> option B) (g : B -> A) (l : list B) :
  (forall b, f (g b) = Some b) -> traverse f (map g l) = Some l.
Proof.
  intros Hfg. induction l as [| b l IH]; cbn.
  - reflexivity.
  - now rewrite Hfg, IH.
Qed.

Lemma dump_float_finite (x : float) :
  PrimFloat.is_finite x = true -> as_float (dump_float x) = Some x.
Proof. unfold dump_float. now intros ->. Qed.

Lemma dump_Optional_float_finite (o : option float) :
  Optional_finite o = true ->
  as_Optional as_float (dump_Optional dump_float o) = Some o.
Proof.
  destruct o as [x|]; cbn; [|reflexivity].
  unfold dump_float. now intros ->.
Qed.

Lemma LocationItem_roundtrip (b : LocationItem) :
  LocationItem_finite b = true ->
  LocationItem_validate (LocationItem_dump b) = Some b.
Proof.
  destruct b as [n la lo r nr d dm].
  unfold LocationItem_finite.
  cbn [latitude longitude rating distance_meters].
  rewrite !andb_true_iff. intros [[[Hla Hlo] Hr] Hdm].
  unfold LocationItem_dump, LocationItem_validate, required, defaulted.
  cbn [member String.eqb Ascii.eqb Bool.eqb as_str
       location_name latitude longitude rating number_of_reviews
       description distance_meters].
  rewrite (dump_float_finite la Hla), (dump_float_finite lo Hlo),
    (dump_Optional_float_finite r Hr), (dump_Optional_float_finite dm Hdm).
  destruct nr, d; reflexivity.
Qed.

Lemma LocationItem_list_roundtrip (l : list LocationItem) :
  forallb LocationItem_finite l = true ->
  as_List LocationItem_validate (JArray (map LocationItem_dump l)) = Some l.
Proof.
  cbn [as_List]. induction l as [| b l IH]; cbn [forallb map traverse].
  - reflexivity.
  - rewrite andb_true_iff. intros [Hb Hl].
    now rewrite (LocationItem_roundtrip b Hb), (IH Hl).
Qed.

Lemma BusinessListOutput_roundtrip (l : BusinessListOutput) :
  BusinessListOutput_finite l = true ->
  BusinessListOutput_validate (BusinessListOutput_dump l) = Some l.
Proof.
  destruct l as [bs]. unfold BusinessListOutput_finite. cbn [businesses].
  intros Hbs.
  unfold BusinessListOutput_dump, BusinessListOutput_validate, required.
  cbn [member String.eqb Ascii.eqb Bool.eqb businesses].
  now rewrite (LocationItem_list_roundtrip bs Hbs).
Qed.

Lemma SimilarAreaOutput_roundtrip (s : SimilarAreaOutput) :
  SimilarAreaOutput_finite s = true ->
  SimilarAreaOutput_validate (SimilarAreaOutput_dump s) = Some s.
Proof.
  destruct s as [la lo r bs]. unfold SimilarAreaOutput_finite.
  cbn [center_latitude center_longitude radius_meters matched_businesses].
  rewrite !andb_true_iff. intros [[[Hla Hlo] Hr] Hbs].
  unfold SimilarAreaOutput_dump, SimilarAreaOutput_validate, required.
  cbn [member String.eqb Ascii.eqb Bool.eqb
       center_latitude center_longitude radius_meters matched_businesses].
  now rewrite (dump_float_finite la Hla), (dump_float_finite lo Hlo),
    (dump_float_finite r Hr), (LocationItem_list_roundtrip bs Hbs).
Qed.

(** C8, as the code has it.  Writing a [RunResponse] all of whose floats
    are finite as a JSON document and validating that document against
    the schema gives the response back, every field of every nested
    [BusinessListOutput], [SimilarAreaOutput] and [LocationItem]
    included, the [None] ones too. *)
Theorem RunResponse_roundtrip_finite (r : RunResponse) :
  RunResponse_finite r = true ->
  RunResponse_validate (RunResponse_dump r) = Some r.
Proof.
  destruct r as [sb db sim]. unfold RunResponse_finite.
  cbn [source_businesses destination_businesses similar_area].
  rewrite !andb_true_iff. intros [[Hsb Hdb] Hsim].
  unfold RunResponse_dump, RunResponse_validate, required.
  cbn [member String.eqb Ascii.eqb Bool.eqb
       source_businesses destination_businesses similar_area].
  now rewrite (BusinessListOutput_roundtrip sb Hsb),
    (BusinessListOutput_roundtrip db Hdb),
    (SimilarAreaOutput_roundtrip sim Hsim).
Qed.

Lemma RunResponse_roundtrip_finite_witness :
  RunResponse_validate (RunResponse_dump (sample_response [cafe; unrated]))
  = Some (sample_response [cafe; unrated]).
Proof.
  apply RunResponse_roundtrip_finite. reflexivity.
Defined.

(** C8, as specified, fails.  A rating of infinity is not [null] in the
    response, is written [null], and comes back as [None]; a latitude
    that is not a number is written [null], and the document is then no
    [RunResponse] at all. *)
Lemma RunResponse_roundtrip_loses_infinity :
  map rating (businesses (source_businesses (sample_response [off_scale])))
  = [Some infinity]
  /\ option_map (fun r => map rating (businesses (source_businesses r)))
       (RunResponse_validate (RunResponse_dump (sample_response [off_scale])))
     = Some [None]
  /\ RunResponse_validate (RunResponse_dump (sample_response [nowhere]))
     = None.
Proof. repeat split. Qed.

(** The converse: a response that comes back from its own document has
    finite floats only. *)
Lemma as_float_dump_float (x y : float) :
  as_float (dump_float x) = Some y -> PrimFloat.is_finite x = true.
Proof.
  unfold dump_float. now destruct (PrimFloat.is_finite x).
Qed.

Lemma as_Optional_dump_float (o : option float) :
  as_Optional as_float (dump_Optional dump_float o) = Some o ->
  Optional_finite o = true.
Proof.
  destruct o as [x|]; cbn; [|reflexivity].
  unfold dump_float. now destruct (PrimFloat.is_finite x).
Qed.

Lemma LocationItem_roundtrip_only_finite (b : LocationItem) :
  LocationItem_validate (LocationItem_dump b) = Some b ->
  LocationItem_finite b = true.
Proof.
  destruct b as [n la lo r nr d dm].
  unfold LocationItem_dump, LocationItem_validate, required, defaulted,
    LocationItem_finite.
  cbn [member String.eqb Ascii.eqb Bool.eqb as_str
       location_name latitude longitude rating number_of_reviews
       description distance_meters].
  destruct (as_float (dump_float la)) as [la'|] eqn:Ela; [|discriminate].
  destruct (as_float (dump_float lo)) as [lo'|] eqn:Elo; [|discriminate].
  destruct (as_Optional as_float (dump_Optional dump_float r)) as [r'|] eqn:Er;
    [|discriminate].
  destruct (as_Optional as_int (dump_Optional JInt nr)); [|discriminate].
  destruct (as_Optional as_str (dump_Optional JString d)); [|discriminate].
  destruct (as_Optional as_float (dump_Optional dump_float dm)) as [dm'|] eqn:Edm;
    [|discriminate].
  intros H. inversion H; subst.
  now rewrite (as_float_dump_float _ _ Ela), (as_float_dump_float _ _ Elo),
    (as_Optional_dump_float _ Er), (as_Optional_dump_float _ Edm).
Qed.

Lemma LocationItem_list_roundtrip_only_finite (l : list LocationItem) :
  as_List LocationItem_validate (JArray (map LocationItem_dump l)) = Some l ->
  forallb LocationItem_finite l = true.
Proof.
  cbn [as_List]. induction l as [| b l IH]; cbn [forallb map traverse].
  - reflexivity.
  - destruct (LocationItem_validate (LocationItem_dump b)) as [b'|] eqn:Eb;
      [|discriminate].
    destruct (traverse LocationItem_validate (map LocationItem_dump l))
      as [l'|] eqn:El; [|discriminate].
    intros H. inversion H; subst.
    now rewrite (LocationItem_roundtrip_only_finite _ Eb), (IH eq_refl).
Qed.

Lemma RunResponse_roundtrip_only_finite (r : RunResponse) :
  RunResponse_validate (RunResponse_dump r) = Some r ->
  RunResponse_finite r = true.
Proof.
  destruct r as [[sb] [db] [la lo ra mb]].
  unfold RunResponse_dump, RunResponse_validate, BusinessListOutput_dump,
    BusinessListOutput_validate, SimilarAreaOutput_dump,
    SimilarAreaOutput_validate, required, RunResponse_finite,
    BusinessListOutput_finite, SimilarAreaOutput_finite.
  cbn [member String.eqb Ascii.eqb Bool.eqb businesses
       source_businesses destination_businesses similar_area
       center_latitude center_longitude radius_meters matched_businesses].
  destruct (as_List LocationItem_validate (JArray (map LocationItem_dump sb)))
    as [sb'|] eqn:Esb; [|discriminate].
  destruct (as_List LocationItem_validate (JArray (map LocationItem_dump db)))
    as [db'|] eqn:Edb; [|discriminate].
  destruct (as_float (dump_float la)) as [la'|] eqn:Ela; [|discriminate].
  destruct (as_float (dump_float lo)) as [lo'|] eqn:Elo; [|discriminate].
  destruct (as_float (dump_float ra)) as [ra'|] eqn:Era; [|discriminate].
  destruct (as_List LocationItem_validate (JArray (map LocationItem_dump mb)))
    as [mb'|] eqn:Emb; [|discriminate].
  intros H. inversion H; subst.
  now rewrite (LocationItem_list_roundtrip_only_finite _ Esb),
    (LocationItem_list_roundtrip_only_finite _ Edb),
    (LocationItem_list_roundtrip_only_finite _ Emb),
    (as_float_dump_float _ _ Ela), (as_float_dump_float _ _ Elo),
    (as_float_dump_float _ _ Era).
Qed.

(** C4, as the code has it.  The request model declares the radii as
    [int] and nothing more: a body with any two integers, positive, zero
    or negative, is accepted, and the request carries exactly those
    integers. *)
Theorem RunRequest_radius_any_integer (sa da cc : string) (sr dr : Z)
    (inds : list string) :
  RunRequest_validate
    (request_body sa sr da dr cc (JArray (map JString inds)))
  = Some {| source_address := sa; source_radius := sr;
            destination_address := da; destination_radius := dr;
            comparison_city := cc; industries := Some inds |}.
Proof.
  unfold request_body, RunRequest_validate, required, defaulted.
  cbn [member String.eqb Ascii.eqb Bool.eqb as_str as_int as_Optional
       as_List option_map].
  now rewrite (traverse_map as_str JString inds) by reflexivity.
Qed.

(** C4, as specified, fails: a request with radius [0] at the
    source and [-5] at the destination passes validation. *)
Lemma RunRequest_radius_not_positive :
  exists req,
    RunRequest_validate
      (request_body "1 Main St, Springfield" 0 "1 Main St, Shelbyville" (-5)
         "Capital City" (JArray [JString "coffee shop"])) = Some req
    /\ ~ (0 < source_radius req /\ 0 < destination_radius req).
Proof.
  eexists. split.
  - reflexivity.
  - cbn. lia.
Qed.

(** ** The prompts *)

(** C7.  With an empty list of industries the agents and the prompt are
    built without an exception; the joined industries are the empty
    text, which leaves two spaces in a row (["in  within"], ["in  in"],
    ["regarding  to"]). *)
Theorem empty_industries_degenerate_phrasing
    (srv : MCPServerStdio) (address : string) (radius : Z) (req : RunRequest) :
  industries req = Some [] ->
  (exists a,
      business_agent srv address radius (industries req) = inr a
      /\ instructions a =
         "You are a Google Maps agent tasked with identifying businesses in  within a "
         ++ str_int radius ++ "m radius around " ++ address
         ++ ". For each business, return:" ++ nl
         ++ "- location_name (string)" ++ nl
         ++ "- latitude (float)" ++ nl
         ++ "- longitude (float)" ++ nl
         ++ "- rating (optional float)" ++ nl
         ++ "- number_of_reviews (optional int)" ++ nl
         ++ "- description (what the business does)" ++ nl
         ++ "- distance_meters (from starting point)" ++ nl
         ++ "Use only interactive, visible elements and report accurate results.")
  /\ business_prompt address radius (industries req)
     = inr ("Identify and return a list of all the businesses in  in a "
            ++ str_int radius ++ " meter radius near " ++ address ++ ".")
  /\ (exists a,
      similarity_agent srv req = inr a
      /\ instructions a =
         "You are a Google Maps agent tasked with finding a location in "
         ++ comparison_city req
         ++ " that has a similar business composition regarding  to a provided list."
         ++ "Your output must include:" ++ nl
         ++ "- center_latitude (float)" ++ nl
         ++ "- center_longitude (float)" ++ nl
         ++ "- radius_meters (float)" ++ nl
         ++ "- matched_businesses (list of businesses matching the original cluster, each with location_name, "
         ++ "latitude, longitude, rating, number_of_reviews, description, distance_meters from center)").
Proof.
  intros Hind.
  unfold business_agent, business_prompt, similarity_agent.
  rewrite Hind. cbn [str_join String.concat].
  repeat split.
  - eexists. split; reflexivity.
  - eexists. split; reflexivity.
Qed.

Lemma empty_industries_degenerate_phrasing_witness :
  business_prompt "1 Main St, Springfield" 500 (Some [])
  = inr "Identify and return a list of all the businesses in  in a 500 meter radius near 1 Main St, Springfield.".
Proof.
  exact (proj1 (proj2 (empty_industries_degenerate_phrasing
                         (GoogleMapsMcp None) "1 Main St, Springfield" 500
                         (sample_request (Some [])) eq_refl))).
Defined.

Section Summary.

Variable float_repr : float -> string.

Lemma rating_None_or_zero (r : option float) :
  r = None \/ r = Some 0%float -> rating_or_NA float_repr r = "N/A".
Proof. intros [-> | ->]; reflexivity. Qed.

Lemma reviews_None_or_zero (n : option Z) :
  n = None \/ n = Some 0 -> reviews_or_0 n = "0".
Proof. intros [-> | ->]; reflexivity. Qed.

(** C10.  In a line of the summary a rating that is [None] or [0.0]
    prints as [N/A], and a number of reviews that is [None] or [0]
    prints as [0]; two businesses that differ only in having the one or
    the other of these values have the same line. *)
Theorem falsy_rating_and_reviews_coalesced (b : LocationItem) :
  (rating b = None \/ rating b = Some 0%float ->
   business_line float_repr b =
   "- " ++ location_name b ++ " (" ++ str_optional (description b)
   ++ "), rated N/A with " ++ reviews_or_0 (number_of_reviews b) ++ " reviews")
  /\ (number_of_reviews b = None \/ number_of_reviews b = Some 0 ->
      business_line float_repr b =
      "- " ++ location_name b ++ " (" ++ str_optional (description b)
      ++ "), rated " ++ rating_or_NA float_repr (rating b) ++ " with 0 reviews")
  /\ (forall b' : LocationItem,
      location_name b' = location_name b ->
      description b' = description b ->
      (rating b = None \/ rating b = Some 0%float) ->
      (rating b' = None \/ rating b' = Some 0%float) ->
      (number_of_reviews b = None \/ number_of_reviews b = Some 0) ->
      (number_of_reviews b' = None \/ number_of_reviews b' = Some 0) ->
      business_line float_repr b' = business_line float_repr b).
Proof.
  unfold business_line. repeat split.
  - intros H. now rewrite (rating_None_or_zero _ H).
  - intros H. now rewrite (reviews_None_or_zero _ H).
  - intros b' Hn Hd Hr Hr' Hv Hv'.
    now rewrite Hn, Hd, (rating_None_or_zero _ Hr), (rating_None_or_zero _ Hr'),
      (reviews_None_or_zero _ Hv), (reviews_None_or_zero _ Hv').
Qed.

End Summary.

Lemma falsy_rating_and_reviews_coalesced_witness :
  business_line sample_repr rated_zero
  = "- Lard Lad Donuts (None), rated N/A with 0 reviews"
  /\ business_line sample_repr unrated = business_line sample_repr rated_zero.
Proof.
  destruct (falsy_rating_and_reviews_coalesced sample_repr rated_zero)
    as [Hrating [_ Hsame]].
  split.
  - exact (Hrating (or_intror eq_refl)).
  - apply Hsame; first [ reflexivity | left; reflexivity | right; reflexivity ].
Defined.

(** ** The handler *)

Lemma business_agent_inv (srv : MCPServerStdio) (address : string) (radius : Z)
    (ind : option (list string)) (a : Agent) :
  business_agent srv address radius ind = inr a ->
  output_type a = TBusinessListOutput /\ exists l, ind = Some l.
Proof.
  unfold business_agent.
  destruct ind as [l|]; cbn; intros H; inversion H; subst.
  split; [reflexivity | now exists l].
Qed.

Lemma similarity_agent_inv (srv : MCPServerStdio) (req : RunRequest) (a : Agent) :
  similarity_agent srv req = inr a ->
  output_type a = TSimilarAreaOutput /\ exists l, industries req = Some l.
Proof.
  unfold similarity_agent.
  destruct (industries req) as [l|]; cbn; intros H; inversion H; subst.
  split; [reflexivity | now exists l].
Qed.

(** [run_business_agent] in one equation: the agent and the prompt are
    built, in that order, and the runtime is asked once, for 15 turns. *)
Lemma run_business_agent_eq (srv : MCPServerStdio) (address : string)
    (radius : Z) (ind : option (list string)) (w : World) (tr : list event) :
  run_business_agent srv address radius ind w tr =
  match business_agent srv address radius ind,
        business_prompt address radius ind with
  | inl e, _ => (inl e, tr)
  | inr _, inl e => (inl e, tr)
  | inr a, inr p =>
      (match runner w (length (runs tr)) a p 15 with
       | inl e => inl e
       | inr r => attr_businesses r
       end, (tr ++ [Run a p 15])%list)
  end.
Proof.
  unfold run_business_agent, bind, lift, Runner_run.
  destruct (business_agent srv address radius ind) as [e|a]; [reflexivity|].
  destruct (business_prompt address radius ind) as [e|p]; [reflexivity|].
  destruct (runner w (length (runs tr)) a p 15); reflexivity.
Qed.

Section HandlerProperties.

Variable float_repr : float -> string.

(** The whole handler in one equation: every way a request can end,
    with the runs made until then. *)
Lemma handle_eq (req : RunRequest) (w : World) :
  handle float_repr req w =
  let srv := server w in
  let ind := industries req in
  match aenter w srv with
  | Some e => (inl (reraised e), [Enter srv])
  | None =>
    match business_agent srv (source_address req) (source_radius req) ind,
          business_prompt (source_address req) (source_radius req) ind with
    | inl e, _ | inr _, inl e => stopped srv e []
    | inr a1, inr p1 =>
      match runner w 0 a1 p1 15 with
      | inl e => stopped srv e [Run a1 p1 15]
      | inr r1 =>
        match attr_businesses r1 with
        | inl e => stopped srv e [Run a1 p1 15]
        | inr sb =>
          match business_agent srv (destination_address req)
                  (destination_radius req) ind,
                business_prompt (destination_address req)
                  (destination_radius req) ind with
          | inl e, _ | inr _, inl e => stopped srv e [Run a1 p1 15]
          | inr a2, inr p2 =>
            match runner w 1 a2 p2 15 with
            | inl e => stopped srv e [Run a1 p1 15; Run a2 p2 15]
            | inr r2 =>
              match attr_businesses r2 with
              | inl e => stopped srv e [Run a1 p1 15; Run a2 p2 15]
              | inr db =>
                match similarity_agent srv req with
                | inl e => stopped srv e [Run a1 p1 15; Run a2 p2 15]
                | inr a3 =>
                  let p3 := similarity_prompt float_repr sb (comparison_city req) in
                  match runner w 2 a3 p3 20 with
                  | inl e =>
                      stopped srv e [Run a1 p1 15; Run a2 p2 15; Run a3 p3 20]
                  | inr r3 =>
                    match field_similar_area r3 with
                    | inl e =>
                        stopped srv e [Run a1 p1 15; Run a2 p2 15; Run a3 p3 20]
                    | inr area =>
                      (inr {| source_businesses := {| businesses := sb |};
                              destination_businesses := {| businesses := db |};
                              similar_area := area |},
                       [Enter srv; Run a1 p1 15; Run a2 p2 15; Run a3 p3 20;
                        Exit srv])
                    end
                  end
                end
              end
            end
          end
        end
      end
    end
  end.
Proof.
  unfold handle, run_agents, try_except, async_with, os_getenv, stopped.
  unfold bind at 1. cbn zeta. fold (server w).
  destruct (aenter w (server w)) as [e|]; [now destruct e|].
  unfold bind at 1. rewrite run_business_agent_eq.
  destruct (business_agent _ (source_address req) _ _) as [e|a1];
    [now destruct e|].
  destruct (business_prompt (source_address req) _ _) as [e|p1];
    [now destruct e|].
  cbn [app runs filter is_Run length].
  destruct (runner w 0 a1 p1 15) as [e|r1]; [now destruct e|].
  destruct (attr_businesses r1) as [e|sb]; [now destruct e|].
  unfold bind at 1. rewrite run_business_agent_eq.
  destruct (business_agent _ (destination_address req) _ _) as [e|a2];
    [now destruct e|].
  destruct (business_prompt (destination_address req) _ _) as [e|p2];
    [now destruct e|].
  cbn [app runs filter is_Run length].
  destruct (runner w 1 a2 p2 15) as [e|r2]; [now destruct e|].
  destruct (attr_businesses r2) as [e|db]; [now destruct e|].
  unfold bind, lift, Runner_run, ret.
  destruct (similarity_agent _ req) as [e|a3]; [now destruct e|].
  cbn [app runs filter is_Run length].
  destruct (runner w 2 a3 _ 20) as [e|r3]; [now destruct e|].
  destruct (field_similar_area r3) as [e|area]; [now destruct e|].
  reflexivity.
Qed.

Ltac split_handle req w :=
  rewrite (handle_eq req w); cbn zeta;
  repeat match goal with
         | |- context [match ?x with _ => _ end] => destruct x eqn:?
         end;
  cbn [stopped fst snd].

Ltac clash :=
  match goal with
  | E : ?x = inr _, H : ?x = inl _ |- _ => rewrite E in H; discriminate H
  | E : ?x = inl _, H : ?x = inl _ |- _ => rewrite E in H; inversion H; subst
  end.

(** C1.  When the runtime raises an [AgentsException] in a run of the
    request, whichever of the three it is, the handler raises
    [HTTPException] with status 500 and the text of that exception as
    detail: no [RunResponse] is returned, and the failed run is the last
    run of the request. *)
Theorem agent_failure_becomes_http_500 (req : RunRequest) (w : World)
    (k : nat) (a : Agent) (p : string) (t : Z) (msg : string) :
  nth_error (runs (snd (handle float_repr req w))) k = Some (Run a p t) ->
  runner w k a p t = inl (AgentsException msg) ->
  fst (handle float_repr req w) = inl (HTTPException 500 msg)
  /\ length (runs (snd (handle float_repr req w))) = S k.
Proof.
  split_handle req w; intros Hk Hr;
    destruct k as [|[|[|[|k]]]];
    cbn [runs filter is_Run app nth_error] in Hk;
    try discriminate Hk;
    inversion Hk; subst; clash; split; reflexivity.
Qed.

(** C2.  When the run for the source address raises an
    [AgentsException], the handler raises [HTTPException] with status
    500, and that run is the only one of the request: no run is made for
    the destination address, none for the similar area. *)
Theorem source_failure_short_circuits (req : RunRequest) (w : World)
    (a : Agent) (p : string) (msg : string) :
  aenter w (server w) = None ->
  business_agent (server w) (source_address req) (source_radius req)
    (industries req) = inr a ->
  business_prompt (source_address req) (source_radius req) (industries req)
    = inr p ->
  runner w 0 a p 15 = inl (AgentsException msg) ->
  handle float_repr req w
  = (inl (HTTPException 500 msg),
     [Enter (server w); Run a p 15; Exit (server w)]).
Proof.
  intros Henter Ha Hp Hrun.
  rewrite handle_eq. cbn zeta.
  now rewrite Henter, Ha, Hp, Hrun.
Qed.

(** The same short circuit for an exception of any class: only the
    conversion to [HTTPException] depends on the class. *)
Lemma source_exception_short_circuits (req : RunRequest) (w : World)
    (a : Agent) (p : string) (e : exn) :
  aenter w (server w) = None ->
  business_agent (server w) (source_address req) (source_radius req)
    (industries req) = inr a ->
  business_prompt (source_address req) (source_radius req) (industries req)
    = inr p ->
  runner w 0 a p 15 = inl e ->
  handle float_repr req w
  = (inl (reraised e), [Enter (server w); Run a p 15; Exit (server w)]).
Proof.
  intros Henter Ha Hp Hrun.
  rewrite handle_eq. cbn zeta.
  now rewrite Henter, Ha, Hp, Hrun.
Qed.

(** C3, as the code has it.  When entering the MCP server raises, the
    request ends there: no run is made, an [AgentsException] leaves the
    handler as [HTTPException] with status 500 and its text as detail,
    and an exception of any other class leaves the handler as it is. *)
Theorem gateway_failure_before_any_run (req : RunRequest) (w : World) (e : exn) :
  aenter w (server w) = Some e ->
  handle float_repr req w = (inl (reraised e), [Enter (server w)])
  /\ runs (snd (handle float_repr req w)) = []
  /\ (forall msg, e = AgentsException msg ->
      fst (handle float_repr req w) = inl (HTTPException 500 msg)).
Proof.
  intros Henter.
  rewrite handle_eq. cbn zeta. rewrite Henter.
  repeat split. intros msg ->. reflexivity.
Qed.

(** The answer of a Business Finder agent is a [BusinessListOutput],
    and [.businesses] reads its list. *)
Lemma business_answer (srv : MCPServerStdio) (address : string) (radius : Z)
    (ind : option (list string)) (a : Agent)
    (r : output_of (output_type a)) (bs : list LocationItem) :
  business_agent srv address radius ind = inr a ->
  attr_businesses r = inr bs ->
  existT output_of (output_type a) r
  = existT output_of TBusinessListOutput {| businesses := bs |}.
Proof.
  unfold business_agent.
  destruct (str_join " or " ind) as [e|inds]; [discriminate|].
  intros Ha. injection Ha as <-. cbn in r |- *.
  intros Hbs. injection Hbs as <-. now destruct r.
Qed.

(** The answer of the Similar Area Finder agent is a
    [SimilarAreaOutput], which the response takes as it is. *)
Lemma similarity_answer (srv : MCPServerStdio) (req : RunRequest) (a : Agent)
    (r : output_of (output_type a)) (area : SimilarAreaOutput) :
  similarity_agent srv req = inr a ->
  field_similar_area r = inr area ->
  existT output_of (output_type a) r
  = existT output_of TSimilarAreaOutput area.
Proof.
  unfold similarity_agent.
  destruct (str_join " or " (industries req)) as [e|inds]; [discriminate|].
  intros Ha. injection Ha as <-. cbn in r |- *.
  intros Harea. now injection Harea as <-.
Qed.

(** C5.  A returned [RunResponse] holds, as [source_businesses], the
    [BusinessListOutput] answered by the first run, made with the agent
    and the prompt built from the source address, the source radius and
    the industries; as [destination_businesses], the
    [BusinessListOutput] answered by the second run, built from the
    destination address and radius and the industries; as
    [similar_area], the [SimilarAreaOutput] answered by the third run,
    whose prompt is the fixed text around one line per source business
    and the comparison city: the destination businesses are not in
    it. *)
Theorem response_assembled_from_the_three_runs (req : RunRequest) (w : World)
    (resp : RunResponse) (tr : list event) :
  handle float_repr req w = (inr resp, tr) ->
  exists a1 p1 r1 a2 p2 r2 a3 p3 r3,
    business_agent (server w) (source_address req) (source_radius req)
      (industries req) = inr a1
    /\ business_prompt (source_address req) (source_radius req)
         (industries req) = inr p1
    /\ runner w 0 a1 p1 15 = inr r1
    /\ existT output_of (output_type a1) r1
       = existT output_of TBusinessListOutput (source_businesses resp)
    /\ business_agent (server w) (destination_address req)
         (destination_radius req) (industries req) = inr a2
    /\ business_prompt (destination_address req) (destination_radius req)
         (industries req) = inr p2
    /\ runner w 1 a2 p2 15 = inr r2
    /\ existT output_of (output_type a2) r2
       = existT output_of TBusinessListOutput (destination_businesses resp)
    /\ similarity_agent (server w) req = inr a3
    /\ p3 = "Based on the following list of businesses:" ++ nl ++ nl
            ++ String.concat nl
                 (map (business_line float_repr)
                    (businesses (source_businesses resp)))
            ++ nl ++ nl
            ++ "Find a similar area in " ++ comparison_city req
            ++ " with a comparable mix of businesses in retail and production. "
            ++ "Return a center location (lat/lon), the search radius in meters, and a list of matching businesses."
    /\ runner w 2 a3 p3 20 = inr r3
    /\ existT output_of (output_type a3) r3
       = existT output_of TSimilarAreaOutput (similar_area resp)
    /\ tr = [Enter (server w); Run a1 p1 15; Run a2 p2 15; Run a3 p3 20;
             Exit (server w)].
Proof.
  split_handle req w; intros H; try discriminate H.
  inversion H; subst; cbn [source_businesses destination_businesses
                           similar_area businesses].
  do 9 eexists.
  repeat match goal with |- _ /\ _ => split end;
    first [ eassumption
          | reflexivity
          | eapply business_answer; eassumption
          | eapply similarity_answer; eassumption ].
Qed.

(** The converse of C5: when the server is entered and the three runs
    answer, the handler returns the response assembled from them. *)
Lemma three_answers_give_a_response (req : RunRequest) (w : World)
    (a1 a2 a3 : Agent) (p1 p2 : string)
    (r1 : output_of (output_type a1)) (r2 : output_of (output_type a2))
    (r3 : output_of (output_type a3))
    (sb db : list LocationItem) (area : SimilarAreaOutput) :
  aenter w (server w) = None ->
  business_agent (server w) (source_address req) (source_radius req)
    (industries req) = inr a1 ->
  business_prompt (source_address req) (source_radius req) (industries req)
    = inr p1 ->
  runner w 0 a1 p1 15 = inr r1 ->
  attr_businesses r1 = inr sb ->
  business_agent (server w) (destination_address req) (destination_radius req)
    (industries req) = inr a2 ->
  business_prompt (destination_address req) (destination_radius req)
    (industries req) = inr p2 ->
  runner w 1 a2 p2 15 = inr r2 ->
  attr_businesses r2 = inr db ->
  similarity_agent (server w) req = inr a3 ->
  runner w 2 a3 (similarity_prompt float_repr sb (comparison_city req)) 20
    = inr r3 ->
  field_similar_area r3 = inr area ->
  handle float_repr req w
  = (inr {| source_businesses := {| businesses := sb |};
            destination_businesses := {| businesses := db |};
            similar_area := area |},
     [Enter (server w); Run a1 p1 15; Run a2 p2 15;
      Run a3 (similarity_prompt float_repr sb (comparison_city req)) 20;
      Exit (server w)]).
Proof.
  intros Henter Ha1 Hp1 Hr1 Hsb Ha2 Hp2 Hr2 Hdb Ha3 Hr3 Harea.
  rewrite handle_eq. cbn zeta.
  rewrite Henter, Ha1, Hp1, Hr1, Hsb, Ha2, Hp2, Hr2, Hdb, Ha3, Hr3, Harea.
  reflexivity.
Qed.

(** C6.  Every run of a request is a run of a Business Finder agent
    with [max_turns=15] or the run of the Similar Area Finder agent with
    [max_turns=20]. *)
Theorem turn_budgets (req : RunRequest) (w : World)
    (a : Agent) (p : string) (t : Z) :
  In (Run a p t) (snd (handle float_repr req w)) ->
  (output_type a = TBusinessListOutput /\ t = 15
   /\ exists address radius,
        business_agent (server w) address radius (industries req) = inr a)
  \/ (output_type a = TSimilarAreaOutput /\ t = 20
      /\ similarity_agent (server w) req = inr a).
Proof.
  split_handle req w; cbn [In app]; intros Hin;
    repeat match goal with
           | H : _ \/ _ |- _ => destruct H
           | H : False |- _ => destruct H
           | H : @eq event _ _ |- _ => inversion H; subst; clear H
           end;
    first
      [ left; split; [eapply business_agent_inv; eassumption|];
        split; [reflexivity|]; do 2 eexists; eassumption
      | right; split; [eapply similarity_agent_inv; eassumption|];
        split; reflexivity ].
Qed.

(** C9.  A body whose [industries] is [null] passes validation, with
    [industries] set to [None].  Once the MCP server is entered the
    handler then fails on the first join of the industries, with a
    [TypeError] that the [except] clause does not convert: it leaves
    the handler as it is, before any run.  The join that raises is the
    one in the instructions of the first agent; the one in the prompt
    raises the same on its own. *)
Theorem null_industries_raise_TypeError (sa da cc : string) (sr dr : Z)
    (w : World) :
  aenter w (server w) = None ->
  RunRequest_validate (request_body sa sr da dr cc JNull)
  = Some {| source_address := sa; source_radius := sr;
            destination_address := da; destination_radius := dr;
            comparison_city := cc; industries := None |}
  /\ post_run float_repr (request_body sa sr da dr cc JNull) w
     = Some (inl (TypeError "can only join an iterable"),
             [Enter (server w); Exit (server w)])
  /\ except_AgentsException (TypeError "can only join an iterable") = None
  /\ business_prompt sa sr None = inl (TypeError "can only join an iterable").
Proof.
  intros Henter.
  assert (Hv : RunRequest_validate (request_body sa sr da dr cc JNull)
               = Some {| source_address := sa; source_radius := sr;
                         destination_address := da; destination_radius := dr;
                         comparison_city := cc; industries := None |})
    by reflexivity.
  split; [exact Hv|]. split; [|split; reflexivity].
  unfold post_run. rewrite Hv. cbn [option_map].
  rewrite handle_eq. cbn zeta. now rewrite Henter.
Qed.

End HandlerProperties.

(** ** The properties at the sample data *)

Lemma agent_failure_becomes_http_500_witness :
  fst (handle sample_repr (sample_request (Some ["coffee shop"]))
         world_destination_fails)
  = inl (HTTPException 500 "Max turns (15) exceeded")
  /\ length (runs (snd (handle sample_repr (sample_request (Some ["coffee shop"]))
                          world_destination_fails))) = 2%nat.
Proof.
  eapply (agent_failure_becomes_http_500 sample_repr
            (sample_request (Some ["coffee shop"])) world_destination_fails 1);
    reflexivity.
Defined.

Lemma source_failure_short_circuits_witness :
  exists a p,
    handle sample_repr (sample_request (Some ["coffee shop"])) world_source_fails
    = (inl (HTTPException 500 "Max turns (15) exceeded"),
       [Enter (server world_source_fails); Run a p 15;
        Exit (server world_source_fails)]).
Proof.
  do 2 eexists.
  apply (source_failure_short_circuits sample_repr
           (sample_request (Some ["coffee shop"])) world_source_fails);
    reflexivity.
Defined.

Lemma gateway_failure_before_any_run_witness :
  handle sample_repr (sample_request (Some ["coffee shop"])) world_no_subprocess
  = (inl (OtherError "FileNotFoundError" "No such file or directory: 'env'"),
     [Enter (server world_no_subprocess)]).
Proof.
  exact (proj1 (gateway_failure_before_any_run sample_repr
                  (sample_request (Some ["coffee shop"])) world_no_subprocess
                  _ eq_refl)).
Defined.

(** C3, as specified, fails: with the API key absent from the
    environment and a subprocess that starts, the request is answered
    with a response after three runs. *)
Lemma missing_key_is_not_a_failure :
  ~ (aenter world_no_key (server world_no_key) <> None
     \/ getenv world_no_key "GOOGLE_MAPS_API_KEY" = None ->
     (exists detail,
         fst (handle sample_repr (sample_request (Some ["coffee shop"]))
                world_no_key) = inl (HTTPException 500 detail))
     /\ runs (snd (handle sample_repr (sample_request (Some ["coffee shop"]))
                     world_no_key)) = []).
Proof.
  intros H. destruct H as [_ Hruns]; [right; reflexivity|].
  vm_compute in Hruns. discriminate Hruns.
Qed.

Lemma response_assembled_from_the_three_runs_witness :
  exists a1 p1 r1 a2 p2 r2 a3 p3 r3,
    runner world_ok 0 a1 p1 15 = inr r1
    /\ existT output_of (output_type a1) r1
       = existT output_of TBusinessListOutput
           {| businesses := [cafe; unrated] |}
    /\ runner world_ok 1 a2 p2 15 = inr r2
    /\ existT output_of (output_type a2) r2
       = existT output_of TBusinessListOutput
           {| businesses := [cafe; unrated] |}
    /\ p3 = "Based on the following list of businesses:" ++ nl ++ nl
            ++ "- Kwik-E-Mart (convenience store), rated 4.5 with 120 reviews"
            ++ nl
            ++ "- Lard Lad Donuts (None), rated N/A with 0 reviews"
            ++ nl ++ nl
            ++ "Find a similar area in Capital City with a comparable mix of businesses in retail and production. "
            ++ "Return a center location (lat/lon), the search radius in meters, and a list of matching businesses."
    /\ runner world_ok 2 a3 p3 20 = inr r3
    /\ existT output_of (output_type a3) r3
       = existT output_of TSimilarAreaOutput sample_area.
Proof.
  destruct (response_assembled_from_the_three_runs sample_repr
              (sample_request (Some ["coffee shop"])) world_ok
              {| source_businesses := {| businesses := [cafe; unrated] |};
                 destination_businesses := {| businesses := [cafe; unrated] |};
                 similar_area := sample_area |}
              _ eq_refl)
    as (a1 & p1 & r1 & a2 & p2 & r2 & a3 & p3 & r3
        & _ & _ & Hr1 & Ho1 & _ & _ & Hr2 & Ho2 & _ & Hp3 & Hr3 & Ho3 & _).
  exists a1, p1, r1, a2, p2, r2, a3, p3, r3.
  repeat split; assumption.
Defined.

Lemma turn_budgets_witness :
  exists a p,
    nth_error (snd (handle sample_repr (sample_request (Some ["coffee shop"]))
                      world_ok)) 3 = Some (Run a p 20)
    /\ similarity_agent (server world_ok) (sample_request (Some ["coffee shop"]))
       = inr a.
Proof.
  do 2 eexists. split; [reflexivity|].
  destruct (turn_budgets sample_repr (sample_request (Some ["coffee shop"]))
              world_ok _ _ 20
              (or_intror (or_intror (or_intror (or_introl eq_refl)))))
    as [[_ [Hturns _]] | [_ [_ Hagent]]];
    [discriminate Hturns | exact Hagent].
Defined.

Lemma null_industries_raise_TypeError_witness :
  post_run sample_repr
    (request_body "1 Main St, Springfield" 500 "1 Main St, Shelbyville" 500
       "Capital City" JNull) world_ok
  = Some (inl (TypeError "can only join an iterable"),
          [Enter (server world_ok); Exit (server world_ok)]).
Proof.
  exact (proj1 (proj2 (null_industries_raise_TypeError sample_repr
                         "1 Main St, Springfield" "1 Main St, Shelbyville"
                         "Capital City" 500 500 world_ok eq_refl))).
Defined.

(** ** Further properties of the schemas *)

Lemma member_other (f k : string) (v : json) (o1 o2 : list (string * json)) :
  f <> k -> member f (o1 ++ (k, v) :: o2) = member f (o1 ++ o2).
Proof.
  intros Hfk. induction o1 as [| [k' v'] o1 IH]; cbn [app member].
  - destruct (member f o2); [reflexivity|].
    now rewrite (proj2 (String.eqb_neq f k) Hfk).
  - now rewrite IH.
Qed.

(** X9.  A member whose key is not the name of a field of [RunRequest]
    has no effect on the validation of the body, wherever it stands among
    the members. *)
Theorem unknown_member_ignored (k : string) (v : json)
    (o1 o2 : list (string * json)) :
  ~ In k ["source_address"; "source_radius"; "destination_address";
          "destination_radius"; "comparison_city"; "industries"] ->
  RunRequest_validate (JObject (o1 ++ (k, v) :: o2))
  = RunRequest_validate (JObject (o1 ++ o2)).
Proof.
  intros Hk.
  unfold RunRequest_validate, required, defaulted.
  rewrite !member_other; [reflexivity | ..];
    intros <-; apply Hk; cbn; tauto.
Qed.

Lemma unknown_member_ignored_witness :
  RunRequest_validate
    (JObject [ ("source_address", JString "A"); ("units", JString "metric");
               ("source_radius", JInt 5); ("destination_address", JString "B");
               ("destination_radius", JInt 7); ("comparison_city", JString "C") ])
  = Some {| source_address := "A"; source_radius := 5;
            destination_address := "B"; destination_radius := 7;
            comparison_city := "C"; industries := Some [] |}.
Proof.
  refine (eq_trans
            (unknown_member_ignored "units" (JString "metric")
               [("source_address", JString "A")]
               [("source_radius", JInt 5); ("destination_address", JString "B");
                ("destination_radius", JInt 7); ("comparison_city", JString "C")]
               _)
            eq_refl).
  cbn. intros H.
  repeat (destruct H as [H | H]; [discriminate H|]). exact H.
Defined.

(** X7.  A body in which one of the five fields declared without default
    is absent, or is [null], is rejected, and the handler is not run for
    it: the server is not entered, no run is made. *)
Theorem missing_required_member_rejected (k : string)
    (o : list (string * json)) :
  In k ["source_address"; "source_radius"; "destination_address";
        "destination_radius"; "comparison_city"] ->
  member k o = None \/ member k o = Some JNull ->
  RunRequest_validate (JObject o) = None
  /\ forall (float_repr : float -> string) (w : World),
       post_run float_repr (JObject o) w = None.
Proof.
  intros Hk Hm.
  assert (Hv : RunRequest_validate (JObject o) = None).
  { unfold RunRequest_validate, required.
    cbn [In] in Hk.
    repeat (destruct Hk as [<- | Hk]; [destruct Hm as [-> | ->]|]);
      try contradiction;
      cbn [as_str as_int];
      repeat match goal with
             | |- context [match ?x with _ => _ end] => destruct x
             end; reflexivity. }
  split; [exact Hv|].
  intros float_repr w. unfold post_run. now rewrite Hv.
Qed.

(** X8.  In an accepted body without a member [industries], the request
    has the empty list of industries, not [None]. *)
Theorem industries_default_empty (o : list (string * json)) (req : RunRequest) :
  member "industries" o = None ->
  RunRequest_validate (JObject o) = Some req ->
  industries req = Some [].
Proof.
  intros Hm.
  unfold RunRequest_validate, defaulted. rewrite Hm.
  repeat match goal with
         | |- context [match ?x with _ => _ end] => destruct x
         end; intros H; inversion H; reflexivity.
Qed.

(** X10.  A document in which [location_name], [latitude] or [longitude]
    is absent, or is [null], is not a [LocationItem]. *)
Theorem LocationItem_required_members (k : string) (o : list (string * json)) :
  In k ["location_name"; "latitude"; "longitude"] ->
  member k o = None \/ member k o = Some JNull ->
  LocationItem_validate (JObject o) = None.
Proof.
  intros Hk Hm.
  unfold LocationItem_validate, required.
  cbn [In] in Hk.
  repeat (destruct Hk as [<- | Hk]; [destruct Hm as [-> | ->]|]);
    try contradiction;
    cbn [as_str as_float];
    repeat match goal with
           | |- context [match ?x with _ => _ end] => destruct x
           end; reflexivity.
Qed.

(** X11.  In a document accepted as a [LocationItem], each of [rating],
    [number_of_reviews], [description] and [distance_meters] that is
    absent or [null] is read as [None]. *)
Theorem LocationItem_optional_members (o : list (string * json))
    (b : LocationItem) :
  LocationItem_validate (JObject o) = Some b ->
  (member "rating" o = None \/ member "rating" o = Some JNull ->
   rating b = None)
  /\ (member "number_of_reviews" o = None
      \/ member "number_of_reviews" o = Some JNull ->
      number_of_reviews b = None)
  /\ (member "description" o = None \/ member "description" o = Some JNull ->
      description b = None)
  /\ (member "distance_meters" o = None
      \/ member "distance_meters" o = Some JNull ->
      distance_meters b = None).
Proof.
  unfold LocationItem_validate, defaulted.
  destruct (required as_str "location_name" o); [|discriminate].
  destruct (required as_float "latitude" o); [|discriminate].
  destruct (required as_float "longitude" o); [|discriminate].
  destruct (member "rating" o) as [j1|] eqn:E1;
    [destruct (as_Optional as_float j1) as [r|] eqn:R1; [|discriminate]|];
  (destruct (member "number_of_reviews" o) as [j2|] eqn:E2;
    [destruct (as_Optional as_int j2) as [nr|] eqn:R2; [|discriminate]|]);
  (destruct (member "description" o) as [j3|] eqn:E3;
    [destruct (as_Optional as_str j3) as [d|] eqn:R3; [|discriminate]|]);
  (destruct (member "distance_meters" o) as [j4|] eqn:E4;
    [destruct (as_Optional as_float j4) as [dm|] eqn:R4; [|discriminate]|]);
  intros H; inversion H; subst; cbn;
  repeat split; intros [Hm | Hm]; try discriminate Hm; try reflexivity;
  inversion Hm; subst; cbn in *; congruence.
Qed.

Lemma string_append_assoc (s1 s2 s3 : string) : (s1 ++ s2) ++ s3 = s1 ++ s2 ++ s3.
Proof. induction s1 as [| c s1 IH]; cbn; [reflexivity | now rewrite IH]. Qed.

Lemma concat_app (sep : string) (l1 l2 : list string) :
  l1 <> [] -> l2 <> [] ->
  String.concat sep (l1 ++ l2)
  = String.concat sep l1 ++ sep ++ String.concat sep l2.
Proof.
  intros H1 H2. induction l1 as [| x l1 IH]; [contradiction|].
  destruct l1 as [| y l1].
  - destruct l2; [contradiction | reflexivity].
  - change (x ++ sep ++ String.concat sep ((y :: l1) ++ l2)
            = (x ++ sep ++ String.concat sep (y :: l1)) ++ sep
              ++ String.concat sep l2).
    rewrite IH by discriminate.
    now rewrite !string_append_assoc.
Qed.

Section MoreSummary.

Variable float_repr : float -> string.

(** X13.  The summary of two non-empty lists of businesses one after the
    other is the summary of the first, a line feed, and the summary of
    the second: one line per business, in the order of the list. *)
Theorem business_list_str_app (l1 l2 : list LocationItem) :
  l1 <> [] -> l2 <> [] ->
  business_list_str float_repr (l1 ++ l2)
  = business_list_str float_repr l1 ++ nl ++ business_list_str float_repr l2.
Proof.
  intros H1 H2. unfold business_list_str.
  rewrite map_app. apply concat_app.
  - destruct l1; [contradiction | discriminate].
  - destruct l2; [contradiction | discriminate].
Qed.

(** X12.  The prompt of the similarity run depends on the source
    businesses through their names, descriptions, ratings and numbers of
    reviews only: the coordinates and the distances are not in it. *)
Theorem summary_ignores_coordinates (l1 l2 : list LocationItem) (city : string) :
  Forall2 (fun b1 b2 =>
             location_name b1 = location_name b2
             /\ description b1 = description b2
             /\ rating b1 = rating b2
             /\ number_of_reviews b1 = number_of_reviews b2) l1 l2 ->
  similarity_prompt float_repr l1 city = similarity_prompt float_repr l2 city.
Proof.
  intros H.
  assert (Hmap : map (business_line float_repr) l1
                 = map (business_line float_repr) l2).
  { induction H as [| b1 b2 l1 l2 (Hn & Hd & Hr & Hv) _ IH]; cbn [map].
    - reflexivity.
    - f_equal; [|exact IH].
      unfold business_line. now rewrite Hn, Hd, Hr, Hv. }
  unfold similarity_prompt, business_list_str. now rewrite Hmap.
Qed.

End MoreSummary.

(** ** Further properties of the handler *)

Lemma business_agent_config (srv : MCPServerStdio) (address : string)
    (radius : Z) (ind : option (list string)) (a : Agent) :
  business_agent srv address radius ind = inr a ->
  mcp_servers a = [srv] /\ model a = "gpt-4.1-nano"
  /\ forall (r : output_of (output_type a)) (e : exn),
       attr_businesses r <> inl e.
Proof.
  unfold business_agent.
  destruct ind as [l|]; cbn; intros H; inversion H; subst; cbn.
  repeat split. intros r e. discriminate.
Qed.

Lemma similarity_agent_config (srv : MCPServerStdio) (req : RunRequest)
    (a : Agent) :
  similarity_agent srv req = inr a ->
  mcp_servers a = [srv] /\ model a = "gpt-4.1"
  /\ forall (r : output_of (output_type a)) (e : exn),
       field_similar_area r <> inl e.
Proof.
  unfold similarity_agent.
  destruct (industries req) as [l|]; cbn; intros H; inversion H; subst; cbn.
  repeat split. intros r e. discriminate.
Qed.

Section MoreHandlerProperties.

Variable float_repr : float -> string.

Ltac handle_cases req w :=
  rewrite (handle_eq float_repr req w); cbn zeta;
  repeat match goal with
         | |- context [match ?x with _ => _ end] => destruct x eqn:?
         end;
  cbn [stopped fst snd].

(** X1.  The trace of a request starts by entering the server.  When
    entering raises, nothing follows; otherwise at most three runs
    follow and the trace ends by leaving the server, however the request
    ends. *)
Theorem trace_is_scoped (req : RunRequest) (w : World) :
  (aenter w (server w) <> None
   /\ snd (handle float_repr req w) = [Enter (server w)])
  \/ (aenter w (server w) = None
      /\ exists rs,
          snd (handle float_repr req w)
          = (Enter (server w) :: rs ++ [Exit (server w)])%list
          /\ forallb is_Run rs = true
          /\ (length rs <= 3)%nat).
Proof.
  handle_cases req w;
    [ left; split; [discriminate | reflexivity] | right; split; [reflexivity|] .. ];
    first [ eexists; split; [reflexivity|]; split; [reflexivity | cbn; lia]
          | eexists [_; _; _]; split; [reflexivity|];
            split; [reflexivity | cbn; lia] ].
Qed.

Lemma reraised_not_AgentsException (e : exn) (msg : string) :
  reraised e <> AgentsException msg.
Proof. destruct e; discriminate. Qed.

Lemma outcome_not_AgentsException (req : RunRequest) (w : World) (msg : string) :
  fst (handle float_repr req w) <> inl (AgentsException msg).
Proof.
  handle_cases req w; intros H; try discriminate H;
    inversion H as [H']; exact (reraised_not_AgentsException _ _ H').
Qed.

(** X2.  No [AgentsException] leaves the handler, in any world. *)
Theorem handler_never_raises_AgentsException (req : RunRequest) (w : World) :
  match fst (handle float_repr req w) with
  | inl (AgentsException _) => False
  | _ => True
  end.
Proof.
  destruct (fst (handle float_repr req w)) as [[msg | | |] |] eqn:E;
    try exact I.
  exact (outcome_not_AgentsException req w msg E).
Qed.

(** X3.  An exception that leaves the handler comes from one of three
    places: entering the server raised it, or a run raised it (in both
    cases an [AgentsException] is converted, any other exception is
    unchanged), or the industries are [None] and their join raised the
    [TypeError].  Reading the attributes of an answer never raises. *)
Theorem failure_provenance (req : RunRequest) (w : World) (e : exn) :
  fst (handle float_repr req w) = inl e ->
  (exists e0, aenter w (server w) = Some e0 /\ e = reraised e0)
  \/ (aenter w (server w) = None /\ industries req = None
      /\ e = TypeError "can only join an iterable")
  \/ (exists k a p t e0,
        nth_error (runs (snd (handle float_repr req w))) k = Some (Run a p t)
        /\ runner w k a p t = inl e0 /\ e = reraised e0).
Proof.
  handle_cases req w; intros H; try discriminate H;
    inversion H; subst; clear H;
    first
      [ (* entering the server raised *)
        solve [left; eexists; split; reflexivity]
      | (* a run raised *)
        solve [right; right; exists 0%nat; do 4 eexists;
               split; [reflexivity | split; [eassumption | reflexivity]]]
      | solve [right; right; exists 1%nat; do 4 eexists;
               split; [reflexivity | split; [eassumption | reflexivity]]]
      | solve [right; right; exists 2%nat; do 4 eexists;
               split; [reflexivity | split; [eassumption | reflexivity]]]
      | (* an attribute of the answer is read *)
        solve [exfalso;
               match goal with
               | Ha : business_agent _ _ _ _ = inr ?a,
                 Hr : attr_businesses _ = inl _ |- _ =>
                   exact (proj2 (proj2 (business_agent_config _ _ _ _ _ Ha))
                            _ _ Hr)
               | Ha : similarity_agent _ _ = inr ?a,
                 Hr : field_similar_area _ = inl _ |- _ =>
                   exact (proj2 (proj2 (similarity_agent_config _ _ _ Ha))
                            _ _ Hr)
               end]
      | (* a join of the industries raised *)
        right; left; split; [reflexivity|];
        match goal with
        | Ha : business_agent _ _ _ _ = inl _ |- _ =>
            unfold business_agent, str_join in Ha
        | Ha : business_prompt _ _ _ = inl _ |- _ =>
            unfold business_prompt, str_join in Ha
        | Ha : similarity_agent _ _ = inl _ |- _ =>
            unfold similarity_agent, str_join in Ha
        end;
        destruct (industries req); [discriminate|];
        match goal with Ha : inl _ = inl _ |- _ => inversion Ha; subst end;
        split; reflexivity ].
Qed.

(** X4.  A request whose industries are [None] makes no run and gets no
    response, in any world. *)
Theorem null_industries_never_answered (req : RunRequest) (w : World) :
  industries req = None ->
  runs (snd (handle float_repr req w)) = []
  /\ exists e, fst (handle float_repr req w) = inl e.
Proof.
  intros Hind.
  rewrite handle_eq. cbn zeta.
  unfold business_agent, str_join. rewrite Hind.
  destruct (aenter w (server w)); cbn; split; eauto.
Qed.

(** X5.  The agent of every run has as its only MCP server the server
    entered for the request, and the model [gpt-4.1-nano] for a Business
    Finder, [gpt-4.1] for the Similar Area Finder. *)
Theorem every_run_uses_the_entered_server (req : RunRequest) (w : World)
    (a : Agent) (p : string) (t : Z) :
  In (Run a p t) (snd (handle float_repr req w)) ->
  mcp_servers a = [server w]
  /\ model a = match output_type a with
               | TBusinessListOutput => "gpt-4.1-nano"
               | TSimilarAreaOutput => "gpt-4.1"
               end.
Proof.
  handle_cases req w; cbn [In app]; intros Hin;
    repeat match goal with
           | H : _ \/ _ |- _ => destruct H
           | H : False |- _ => destruct H
           | H : @eq event _ _ |- _ => inversion H; subst; clear H
           end;
    match goal with
    | Ha : business_agent _ _ _ _ = inr ?x |- mcp_servers ?x = _ /\ _ =>
        destruct (business_agent_inv _ _ _ _ _ Ha) as [Ht _];
        destruct (business_agent_config _ _ _ _ _ Ha) as (Hs & Hm & _)
    | Ha : similarity_agent _ _ = inr ?x |- mcp_servers ?x = _ /\ _ =>
        destruct (similarity_agent_inv _ _ _ Ha) as [Ht _];
        destruct (similarity_agent_config _ _ _ Ha) as (Hs & Hm & _)
    end;
    first [ congruence | split; assumption ].
Qed.

(** X6.  The handler depends on the world through the API key, the start
    of the server and the answers to the first three runs only: in two
    worlds that agree on these a request has the same outcome and the
    same trace. *)
Theorem handler_reads_the_key_and_three_answers (req : RunRequest)
    (w1 w2 : World) :
  getenv w1 "GOOGLE_MAPS_API_KEY" = getenv w2 "GOOGLE_MAPS_API_KEY" ->
  (forall srv, aenter w1 srv = aenter w2 srv) ->
  (forall k a p t, (k < 3)%nat -> runner w1 k a p t = runner w2 k a p t) ->
  handle float_repr req w1 = handle float_repr req w2.
Proof.
  intros Hkey Henter Hrun.
  rewrite !handle_eq. cbn zeta. unfold server.
  rewrite Hkey, Henter.
  destruct (aenter w2 _); [reflexivity|].
  destruct (business_agent _ (source_address req) _ _) as [e|a1];
    [reflexivity|].
  destruct (business_prompt (source_address req) _ _) as [e|p1];
    [reflexivity|].
  rewrite (Hrun 0%nat a1 p1 15) by lia.
  destruct (runner w2 0 a1 p1 15) as [e|r1]; [reflexivity|].
  destruct (attr_businesses r1) as [e|sb]; [reflexivity|].
  destruct (business_agent _ (destination_address req) _ _) as [e|a2];
    [reflexivity|].
  destruct (business_prompt (destination_address req) _ _) as [e|p2];
    [reflexivity|].
  rewrite (Hrun 1%nat a2 p2 15) by lia.
  destruct (runner w2 1 a2 p2 15) as [e|r2]; [reflexivity|].
  destruct (attr_businesses r2) as [e|db]; [reflexivity|].
  destruct (similarity_agent _ req) as [e|a3]; [reflexivity|].
  rewrite (Hrun 2%nat a3 _ 20) by lia.
  reflexivity.
Qed.

End MoreHandlerProperties.

(** ** The further properties at the sample data *)

Lemma missing_required_member_rejected_witness :
  post_run sample_repr
    (JObject [ ("source_radius", JInt 500);
               ("destination_address", JString "1 Main St, Shelbyville");
               ("destination_radius", JInt 500);
               ("comparison_city", JString "Capital City") ]) world_ok
  = None.
Proof.
  refine (proj2 (missing_required_member_rejected "source_address" _ _ _)
            sample_repr world_ok).
  - cbn. tauto.
  - left. reflexivity.
Defined.

Lemma industries_default_empty_witness :
  industries
    {| source_address := "A"; source_radius := 5;
       destination_address := "B"; destination_radius := 7;
       comparison_city := "C"; industries := Some [] |}
  = Some [].
Proof.
  apply (industries_default_empty
           [ ("source_address", JString "A"); ("source_radius", JInt 5);
             ("destination_address", JString "B");
             ("destination_radius", JInt 7);
             ("comparison_city", JString "C") ]);
    reflexivity.
Defined.

Lemma LocationItem_required_members_witness :
  LocationItem_validate
    (JObject [ ("location_name", JString "Kwik-E-Mart");
               ("latitude", JNull); ("longitude", JFloat 1.5%float) ])
  = None.
Proof.
  apply (LocationItem_required_members "latitude").
  - cbn. tauto.
  - right. reflexivity.
Defined.

Lemma LocationItem_optional_members_witness :
  rating {| location_name := "Kwik-E-Mart"; latitude := 44.5%float;
            longitude := 1.5%float; rating := None;
            number_of_reviews := Some 3; description := None;
            distance_meters := None |} = None.
Proof.
  refine (proj1 (LocationItem_optional_members
                   [ ("location_name", JString "Kwik-E-Mart");
                     ("latitude", JFloat 44.5%float);
                     ("longitude", JFloat 1.5%float);
                     ("number_of_reviews", JInt 3);
                     ("description", JNull) ] _ eq_refl) _).
  left. reflexivity.
Defined.

Lemma business_list_str_app_witness :
  business_list_str sample_repr [cafe; unrated]
  = business_list_str sample_repr [cafe] ++ nl
    ++ business_list_str sample_repr [unrated].
Proof.
  apply (business_list_str_app sample_repr [cafe] [unrated]); discriminate.
Defined.

Lemma summary_ignores_coordinates_witness :
  similarity_prompt sample_repr
    [ {| location_name := "Lard Lad Donuts"; latitude := 1.5%float;
         longitude := 2.5%float; rating := None; number_of_reviews := None;
         description := None; distance_meters := Some 10%float |} ]
    "Capital City"
  = similarity_prompt sample_repr [unrated] "Capital City".
Proof.
  apply summary_ignores_coordinates.
  constructor; [repeat split | constructor].
Defined.

Lemma failure_provenance_witness :
  exists k a p t e0,
    nth_error (runs (snd (handle sample_repr
                            (sample_request (Some ["coffee shop"]))
                            world_destination_fails))) k
    = Some (Run a p t)
    /\ runner world_destination_fails k a p t = inl e0
    /\ HTTPException 500 "Max turns (15) exceeded" = reraised e0.
Proof.
  destruct (failure_provenance sample_repr
              (sample_request (Some ["coffee shop"])) world_destination_fails
              (HTTPException 500 "Max turns (15) exceeded") eq_refl)
    as [(e0 & Henter & _) | [(_ & Hind & _) | Hrun]].
  - discriminate Henter.
  - discriminate Hind.
  - exact Hrun.
Defined.

Lemma null_industries_never_answered_witness :
  runs (snd (handle sample_repr (sample_request None) world_ok)) = [].
Proof.
  exact (proj1 (null_industries_never_answered sample_repr
                  (sample_request None) world_ok eq_refl)).
Defined.

Lemma every_run_uses_the_entered_server_witness :
  exists a p,
    nth_error (snd (handle sample_repr (sample_request (Some ["coffee shop"]))
                      world_ok)) 1 = Some (Run a p 15)
    /\ mcp_servers a = [server world_ok].
Proof.
  do 2 eexists. split; [reflexivity|].
  exact (proj1 (every_run_uses_the_entered_server sample_repr
                  (sample_request (Some ["coffee shop"])) world_ok _ _ 15
                  (or_intror (or_introl eq_refl)))).
Defined.

Lemma handler_reads_the_key_and_three_answers_witness :
  handle sample_repr (sample_request (Some ["coffee shop"])) world_ok
  = handle sample_repr (sample_request (Some ["coffee shop"]))
      (scripted_world (Some "AIzaSyExample") None (max_turns_exceeded_at 3)).
Proof.
  apply handler_reads_the_key_and_three_answers.
  - reflexivity.
  - reflexivity.
  - intros k a p t Hk. cbn. unfold max_turns_exceeded_at.
    destruct k as [|[|[|k]]]; [reflexivity | reflexivity | reflexivity | lia].
Defined.
